(** * The guest-side facade of the sql plugin ([guest-js/index.ts])

    A shallow embedding of the [Database] class: the values that cross the
    plugin boundary, the [invoke] calls the facade makes, and the outcome of
    each method against an arbitrary backend.  TypeScript types are erased at
    run time, so values are modelled untyped and the typing the source
    declares appears as predicates over them. *)

From Stdlib Require Import ZArith Ascii String.
From stdpp Require Import gmap strings list fin_maps.

Local Open Scope string_scope.
Local Open Scope Z_scope.

(** ** JavaScript values

    The facade does no arithmetic, so a number is only ever carried around;
    it is represented by an integer. *)

#[warnings="-register-all"]
Inductive JsValue : Type :=
| JUndefined
| JNull
| JBool (b : bool)
| JNum (n : Z)
| JStr (s : string)
| JArr (items : list JsValue)
| JObj (fields : list (string * JsValue)).

(** [o.key]: the first binding of [key], [undefined] when there is none. *)
Fixpoint lookup_field (key : string) (fields : list (string * JsValue)) : JsValue :=
  match fields with
  | [] => JUndefined
  | (k, v) :: rest => if String.eqb k key then v else lookup_field key rest
  end.

Definition get_field (key : string) (o : JsValue) : JsValue :=
  match o with
  | JObj fields => lookup_field key fields
  | _ => JUndefined
  end.

(** [a ?? b]: [b] when [a] is [undefined] or [null], else [a]. *)
Definition nullish (a b : JsValue) : JsValue :=
  match a with
  | JUndefined | JNull => b
  | _ => a
  end.

(** The values an iterable yields, [None] for a value that is not iterable.
    A string yields its characters, code point by code point, as strings.
    The bytes of a string are its UTF-8 encoding: a character is a byte
    together with the continuation bytes (10xxxxxx) that follow it. *)
Definition is_continuation (a : ascii) : bool :=
  let n := nat_of_ascii a in ((128 <=? n) && (n <? 192))%nat.

Fixpoint chars_from (current : string) (s : string) : list JsValue :=
  match s with
  | EmptyString => [JStr current]
  | String a rest =>
      if is_continuation a then chars_from (current ++ String a EmptyString) rest
      else JStr current :: chars_from (String a EmptyString) rest
  end.

Definition chars (s : string) : list JsValue :=
  match s with
  | EmptyString => []
  | String a rest => chars_from (String a EmptyString) rest
  end.

Definition iterate (v : JsValue) : option (list JsValue) :=
  match v with
  | JArr items => Some items
  | JStr s => Some (chars s)
  | _ => None
  end.

(** A [TypeError]; the wording of the message is the engine's own. *)
Definition TypeError (message : string) : JsValue :=
  JObj [("name", JStr "TypeError"); ("message", JStr message)].

(** ** Computations

    A computation is a tree of [invoke] calls.  Each call hands a command
    name and an argument object to the backend and continues with the way
    the promise settles. *)

Inductive Settled : Type :=
| Resolved (value : JsValue)
| Rejected (reason : JsValue).

Inductive Prog (A : Type) : Type :=
| Done (a : A)
| Call (cmd : string) (args : JsValue) (k : Settled -> Prog A).

Arguments Done {A} a.
Arguments Call {A} cmd args k.

Fixpoint prog_bind {A B} (p : Prog A) (f : A -> Prog B) : Prog B :=
  match p with
  | Done a => f a
  | Call cmd args k => Call cmd args (fun r => prog_bind (k r) f)
  end.

(** A function body either returns or throws. *)
Inductive Outcome (A : Type) : Type :=
| Returned (a : A)
| Thrown (e : JsValue).

Arguments Returned {A} a.
Arguments Thrown {A} e.

(** A body running with a mutable [this] of type [T]: a static method has
    [T = unit].  A throw keeps the object as it was at that point.  For an
    [async] method the outcome is the way the promise it returns settles:
    [Returned] for resolved, [Thrown] for rejected. *)
Definition Js (T A : Type) : Type := T -> Prog (Outcome A * T).

Definition ret {T A} (a : A) : Js T A := fun this => Done (Returned a, this).

Definition throw {T A} (e : JsValue) : Js T A := fun this => Done (Thrown e, this).

Definition bind {T A B} (m : Js T A) (f : A -> Js T B) : Js T B :=
  fun this =>
    prog_bind (m this) (fun r =>
      match r with
      | (Returned a, this') => f a this'
      | (Thrown e, this') => Done (Thrown e, this')
      end).

Declare Scope js_scope.
Delimit Scope js_scope with js.
Notation "'let*' x ':=' m 'in' k" := (bind m (fun x => k))
  (at level 10, x pattern, m at level 100, k at level 200) : js_scope.
Local Open Scope js_scope.

(** [invoke(cmd, args)]: the promise, as it settles. *)
Definition invoke {T} (cmd : string) (args : JsValue) : Js T Settled :=
  fun this => Call cmd args (fun r => Done (Returned r, this)).

(** [await p]: the value of a resolved promise; a rejected one throws its
    reason. *)
Definition await {T} (p : Js T Settled) : Js T JsValue :=
  let* r := p in
  match r with
  | Resolved v => ret v
  | Rejected e => throw e
  end.

Definition read_this {T} : Js T T := fun this => Done (Returned this, this).

Definition write_this {T} (new : T) : Js T unit := fun _ => Done (Returned tt, new).

(** [const [a, b] = v]. *)
Definition destructure2 {T} (v : JsValue) : Js T (JsValue * JsValue) :=
  match iterate v with
  | Some items => ret (default JUndefined (items !! 0%nat), default JUndefined (items !! 1%nat))
  | None => throw (TypeError "value is not iterable")
  end.

(** ** The type [DbConnection]

    [`${`sqlite` | `postgres` | `mysql`}:${string}`]: the strings that start
    with one of the three schemes followed by a colon. *)

Definition DbConnection_schemes : list string := ["sqlite"; "postgres"; "mysql"].

Definition is_DbConnection (c : string) : bool :=
  existsb (fun scheme => String.prefix (scheme ++ ":") c) DbConnection_schemes.

(** ** The class [Database] *)

Module Database.

Record t : Type := { connection : JsValue }.

(** An object before its constructor has run. *)
Definition blank : t := {| connection := JUndefined |}.

(** [constructor(connection) { this.connection = connection; }] *)
Definition constructor (connection : JsValue) : Js t unit :=
  write_this {| connection := connection |}.

(** [new Database(connection)], from any context. *)
Definition new {T} (connection : JsValue) : Js T t :=
  fun ctx =>
    prog_bind (constructor connection blank) (fun r =>
      match r with
      | (Returned _, obj) => Done (Returned obj, ctx)
      | (Thrown e, _) => Done (Thrown e, ctx)
      end).

(** [static async load(connection)] *)
Definition load (connection : JsValue) : Js unit t :=
  let* _conn := await (invoke "plugin:sql|load" (JObj [("db", connection)])) in
  new _conn.

(** [static get(connection)] *)
Definition get (connection : JsValue) : Js unit t :=
  new connection.

(** [async execute(sql, bindValues?)] *)
Definition execute (sql bindValues : JsValue) : Js t JsValue :=
  let* this := read_this in
  let* response :=
    await (invoke "plugin:sql|execute"
             (JObj [("db", connection this);
                    ("sql", sql);
                    ("values", nullish bindValues (JArr []))])) in
  let* (rowsAffected, lastInsertId) := destructure2 response in
  ret (JObj [("lastInsertId", lastInsertId); ("rowsAffected", rowsAffected)]).

(** [async select(sql, bindValues?)] *)
Definition select (sql bindValues : JsValue) : Js t JsValue :=
  let* this := read_this in
  await (invoke "plugin:sql|select"
           (JObj [("db", connection this);
                  ("sql", sql);
                  ("values", nullish bindValues (JArr []))])).

(** [async close()] *)
Definition close : Js t JsValue :=
  let* this := read_this in
  await (invoke "plugin:sql|close" (JObj [("db", connection this)])).

End Database.

(** ** Running a computation against a backend

    A backend answers each command from its own state.  [run] gives what the
    computation produced, the backend state it left, and the invocations it
    made, in order. *)

Definition Invocation : Type := string * JsValue.

Definition Backend (W : Type) : Type := string -> JsValue -> W -> Settled * W.

Fixpoint run {W A} (backend : Backend W) (p : Prog A) (w : W) : A * W * list Invocation :=
  match p with
  | Done a => (a, w, [])
  | Call cmd args k =>
      let '(r, w1) := backend cmd args w in
      let '(a, w2, log) := run backend (k r) w1 in
      (a, w2, (cmd, args) :: log)
  end.

(** * The core behind the boundary

    The pool manager and command dispatcher that answer the facade's
    commands are native code outside these sources.  The definitions of
    this module follow the design document instead, for one caller at a
    time: waiting for a connection and fairness among waiters have no
    counterpart here. *)

Module Core.

(** Modelled from the spec: the native core is missing; this is the scheme
    of a ConnectionDescriptor, one of the three recognized values. *)
Inductive Scheme : Type := sqlite | postgres | mysql.

(** Modelled from the spec: the native core is missing; a
    ConnectionDescriptor is a scheme and a driver-specific address, compared
    by value. *)
Record ConnectionDescriptor : Type := { scheme : Scheme; address : string }.

#[global] Instance Scheme_eq_dec : EqDecision Scheme.
Proof. solve_decision. Defined.

#[global] Instance Scheme_countable : Countable Scheme.
Proof.
  refine (inj_countable'
            (fun s => match s with sqlite => 0%nat | postgres => 1%nat | mysql => 2%nat end)
            (fun n => match n with 0%nat => sqlite | 1%nat => postgres | _ => mysql end) _).
  intros []; reflexivity.
Defined.

#[global] Instance ConnectionDescriptor_eq_dec : EqDecision ConnectionDescriptor.
Proof. solve_decision. Defined.

#[global] Instance ConnectionDescriptor_countable : Countable ConnectionDescriptor.
Proof.
  refine (inj_countable'
            (fun d => (scheme d, address d))
            (fun p => {| scheme := fst p; address := snd p |}) _).
  intros []; reflexivity.
Defined.

(** Modelled from the spec: the native core is missing; the error taxonomy
    of its section 7.  [MalformedRequest] stands for a request the transport
    could not decode, which the document leaves to the transport. *)
Inductive Error : Type :=
| InvalidScheme
| UnsupportedScheme
| ConnectionEstablishError (message : string)
| QueryExecutionError (message : string)
| UnsupportedParameterType
| PoolTimeoutError
| MalformedRequest.

Definition error_kind (e : Error) : string :=
  match e with
  | InvalidScheme => "InvalidScheme"
  | UnsupportedScheme => "UnsupportedScheme"
  | ConnectionEstablishError _ => "ConnectionEstablishError"
  | QueryExecutionError _ => "QueryExecutionError"
  | UnsupportedParameterType => "UnsupportedParameterType"
  | PoolTimeoutError => "PoolTimeoutError"
  | MalformedRequest => "MalformedRequest"
  end.

Definition error_message (e : Error) : string :=
  match e with
  | ConnectionEstablishError m | QueryExecutionError m => m
  | _ => ""
  end.

(** An error as the caller sees it: its kind and the driver's own message. *)
Definition error_value (e : Error) : JsValue :=
  JObj [("kind", JStr (error_kind e)); ("message", JStr (error_message e))].

(** ** Connection Descriptor Parser *)

Fixpoint split_first_colon (s : string) : option (string * string) :=
  match s with
  | EmptyString => None
  | String a rest =>
      if Ascii.eqb a ":"%char then Some (EmptyString, rest)
      else match split_first_colon rest with
           | Some (l, r) => Some (String a l, r)
           | None => None
           end
  end.

Definition lower_ascii (a : ascii) : ascii :=
  let n := nat_of_ascii a in
  if ((65 <=? n) && (n <=? 90))%nat then ascii_of_nat (n + 32) else a.

Fixpoint lower (s : string) : string :=
  match s with
  | EmptyString => EmptyString
  | String a rest => String (lower_ascii a) (lower rest)
  end.

Definition scheme_of_name (name : string) : option Scheme :=
  if String.eqb name "sqlite" then Some sqlite
  else if String.eqb name "postgres" then Some postgres
  else if String.eqb name "mysql" then Some mysql
  else None.

(** Modelled from the spec: the native core is missing; [parse] splits on
    the first colon, matches the left side against the three schemes without
    regard to case, and passes the right side through unexamined. *)
Definition parse (raw : string) : Error + ConnectionDescriptor :=
  match split_first_colon raw with
  | Some (l, r) =>
      match scheme_of_name (lower l) with
      | Some s => inr {| scheme := s; address := r |}
      | None => inl InvalidScheme
      end
  | None => inl InvalidScheme
  end.

(** ** Driver Registry *)

(** Modelled from the spec: the native core is missing; the three driver
    variants. *)
Inductive Driver : Type := SqliteDriver | PostgresDriver | MySqlDriver.

(** Modelled from the spec: the native core is missing; [resolve] is the
    static scheme-to-driver mapping.  Every scheme the parser produces has a
    driver, so the UnsupportedScheme failure has no case. *)
Definition resolve (s : Scheme) : Driver :=
  match s with
  | sqlite => SqliteDriver
  | postgres => PostgresDriver
  | mysql => MySqlDriver
  end.

(** Modelled from the spec: the native core is missing; whether a driver
    has a meaningful last-inserted id.  The Postgres driver has none (the
    documentation of [QueryResult.lastInsertId] in the facade says so). *)
Definition has_last_insert_id (d : Driver) : bool :=
  match d with
  | PostgresDriver => false
  | SqliteDriver | MySqlDriver => true
  end.

(** What the databases themselves do, for a world [D] of database servers
    and files: opening a connection may fail with a message; a statement
    yields the driver's own counts or rows, or the driver's message. *)
Record Drivers (D : Type) : Type := {
  drv_open : Driver -> string -> D -> option string;
  drv_execute : Driver -> string -> string -> list JsValue -> D -> (string + Z * Z) * D;
  drv_select : Driver -> string -> string -> list JsValue -> D
               -> (string + list (list (string * JsValue))) * D
}.

Arguments drv_open {D} _ _ _ _.
Arguments drv_execute {D} _ _ _ _ _ _.
Arguments drv_select {D} _ _ _ _ _ _.

(** ** Pool Table and Connection Pool *)

(** Modelled from the spec: the native core is missing; a Pool with its
    driver and its live connections, all idle between two calls. *)
Record Pool : Type := { pool_driver : Driver; pool_idle : nat }.

(** Modelled from the spec: the native core is missing; the process-wide
    state: the Pool Table and the databases. *)
Record State (D : Type) : Type := {
  pools : gmap ConnectionDescriptor Pool;
  world : D
}.

Arguments pools {D} _.
Arguments world {D} _.

(** Modelled from the spec: the native core is missing; [getOrCreate]
    returns the entry of a descriptor, inserting a pool without connections
    when there is none. *)
Definition getOrCreate (d : ConnectionDescriptor) (table : gmap ConnectionDescriptor Pool)
  : Pool * gmap ConnectionDescriptor Pool :=
  match table !! d with
  | Some p => (p, table)
  | None =>
      let p := {| pool_driver := resolve (scheme d); pool_idle := 0 |} in
      (p, <[d := p]> table)
  end.

Section Dispatch.

Context {D : Type} (drivers : Drivers D).

(** Modelled from the spec: the native core is missing; [acquire] hands out
    an idle connection when there is one and opens a new one otherwise. *)
Definition acquire (d : ConnectionDescriptor) (st : State D) : Error + State D :=
  let '(p, table) := getOrCreate d (pools st) in
  match pool_idle p with
  | S n =>
      inr {| pools := <[d := {| pool_driver := pool_driver p; pool_idle := n |}]> table;
             world := world st |}
  | O =>
      match drv_open drivers (pool_driver p) (address d) (world st) with
      | None => inr {| pools := table; world := world st |}
      | Some message =>
          inl (ConnectionEstablishError message)
      end
  end.

(** Modelled from the spec: the native core is missing; [release] returns
    the connection to idle. *)
Definition release (d : ConnectionDescriptor) (st : State D) : State D :=
  {| pools := alter (fun p => {| pool_driver := pool_driver p; pool_idle := S (pool_idle p) |})
                    d (pools st);
     world := world st |}.

(** A parameter a driver can bind: a scalar. *)
Definition bindable (v : JsValue) : bool :=
  match v with
  | JNull | JBool _ | JNum _ | JStr _ => true
  | JUndefined | JArr _ | JObj _ => false
  end.

(** Modelled from the spec: the native core is missing; the normalized
    result of [execute]: the affected-row count and the last-inserted id, 0
    where the driver has none. *)
Definition normalize (drv : Driver) (native : Z * Z) : Z * Z :=
  (fst native, if has_last_insert_id drv then snd native else 0).

(** Modelled from the spec: the native core is missing; the dispatcher's
    [execute] acquires a connection, binds, runs the statement, releases the
    connection on every path and returns the normalized result. *)
Definition execute (d : ConnectionDescriptor) (sql : string) (params : list JsValue)
    (st : State D) : (Error + Z * Z) * State D :=
  match acquire d st with
  | inl e =>
      (inl e, {| pools := snd (getOrCreate d (pools st)); world := world st |})
  | inr st1 =>
      if forallb bindable params then
        let drv := resolve (scheme d) in
        let '(r, w) := drv_execute drivers drv (address d) sql params (world st1) in
        let st2 := release d {| pools := pools st1; world := w |} in
        match r with
        | inl message => (inl (QueryExecutionError message), st2)
        | inr native => (inr (normalize drv native), st2)
        end
      else (inl UnsupportedParameterType, release d st1)
  end.

(** Modelled from the spec: the native core is missing; the dispatcher's
    [select], with the same acquire and release discipline. *)
Definition select (d : ConnectionDescriptor) (sql : string) (params : list JsValue)
    (st : State D) : (Error + list (list (string * JsValue))) * State D :=
  match acquire d st with
  | inl e =>
      (inl e, {| pools := snd (getOrCreate d (pools st)); world := world st |})
  | inr st1 =>
      if forallb bindable params then
        let drv := resolve (scheme d) in
        let '(r, w) := drv_select drivers drv (address d) sql params (world st1) in
        let st2 := release d {| pools := pools st1; world := w |} in
        match r with
        | inl message => (inl (QueryExecutionError message), st2)
        | inr rows => (inr rows, st2)
        end
      else (inl UnsupportedParameterType, release d st1)
  end.

(** Modelled from the spec: the native core is missing; [load] establishes
    the pool and its first connection at once. *)
Definition load (d : ConnectionDescriptor) (st : State D) : option Error * State D :=
  match acquire d st with
  | inl e => (Some e, {| pools := snd (getOrCreate d (pools st)); world := world st |})
  | inr st1 => (None, release d st1)
  end.

(** Modelled from the spec: the native core is missing; the Lifecycle
    Manager's [close]: with a descriptor it closes that one pool and reports
    whether there was one; without, it closes every pool of the table. *)
Definition close (target : option ConnectionDescriptor) (st : State D) : bool * State D :=
  match target with
  | Some d =>
      match pools st !! d with
      | Some _ => (true, {| pools := delete d (pools st); world := world st |})
      | None => (false, st)
      end
  | None =>
      (negb (bool_decide (pools st = ∅)), {| pools := ∅; world := world st |})
  end.

(** ** The commands, as the facade invokes them *)

Definition reject (e : Error) (st : State D) : Settled * State D :=
  (Rejected (error_value e), st).

Definition row_value (row : list (string * JsValue)) : JsValue := JObj row.

(** Modelled from the spec: the native core is missing; the four commands
    of the external interface, over the argument objects and the answers the
    facade exchanges with them. *)
Definition backend : Backend (State D) :=
  fun cmd args st =>
    if String.eqb cmd "plugin:sql|load" then
      match get_field "db" args with
      | JStr raw =>
          match parse raw with
          | inl e => reject e st
          | inr d =>
              match load d st with
              | (Some e, st') => reject e st'
              | (None, st') => (Resolved (JStr raw), st')
              end
          end
      | _ => reject MalformedRequest st
      end
    else if String.eqb cmd "plugin:sql|execute" then
      match get_field "db" args, get_field "sql" args, get_field "values" args with
      | JStr raw, JStr sql, JArr params =>
          match parse raw with
          | inl e => reject e st
          | inr d =>
              match execute d sql params st with
              | (inl e, st') => reject e st'
              | (inr (rows, id), st') => (Resolved (JArr [JNum rows; JNum id]), st')
              end
          end
      | _, _, _ => reject MalformedRequest st
      end
    else if String.eqb cmd "plugin:sql|select" then
      match get_field "db" args, get_field "sql" args, get_field "values" args with
      | JStr raw, JStr sql, JArr params =>
          match parse raw with
          | inl e => reject e st
          | inr d =>
              match select d sql params st with
              | (inl e, st') => reject e st'
              | (inr rows, st') => (Resolved (JArr (map row_value rows)), st')
              end
          end
      | _, _, _ => reject MalformedRequest st
      end
    else if String.eqb cmd "plugin:sql|close" then
      match get_field "db" args with
      | JStr raw =>
          match parse raw with
          | inl e => reject e st
          | inr d =>
              let '(changed, st') := close (Some d) st in
              (Resolved (JBool changed), st')
          end
      | JUndefined | JNull =>
          let '(changed, st') := close None st in
          (Resolved (JBool changed), st')
      | _ => reject MalformedRequest st
      end
    else reject MalformedRequest st.

End Dispatch.

End Core.

(** A backend that answers from a script, whatever it is asked: each call
    takes the next answer; with the script used up it rejects. *)
Definition scripted : Backend (list Settled) :=
  fun _ _ script =>
    match script with
    | [] => (Rejected (JStr "no answer left"), [])
    | r :: rest => (r, rest)
    end.

(** Databases for examples: a connection opens unless the address is
    empty, a statement affects three rows and the driver's own id is 42, a
    query yields one row. *)
Definition example_drivers : Core.Drivers unit :=
  {| Core.drv_open := fun _ addr _ => if String.eqb addr "" then Some "no address" else None;
     Core.drv_execute := fun _ _ _ _ w => (inr (3, 42), w);
     Core.drv_select := fun _ _ _ _ w => (inr [[("id", JNum 1)]], w) |}.

Definition example_pool : Core.Pool :=
  {| Core.pool_driver := Core.SqliteDriver; Core.pool_idle := 1 |}.

Definition pool_a : Core.ConnectionDescriptor :=
  {| Core.scheme := Core.sqlite; Core.address := "a.db" |}.

Definition pool_b : Core.ConnectionDescriptor :=
  {| Core.scheme := Core.sqlite; Core.address := "b.db" |}.

(** A Pool Table with two pools open. *)
Definition two_pools : Core.State unit :=
  {| Core.pools := <[pool_a := example_pool]> (<[pool_b := example_pool]> ∅);
     Core.world := tt |}.

Definition no_pools : Core.State unit :=
  {| Core.pools := ∅; Core.world := tt |}.

(** A handle, a statement and its parameters for examples. *)
Definition example_handle : Database.t :=
  {| Database.connection := JStr "sqlite:test.db" |}.

Definition postgres_handle : Database.t :=
  {| Database.connection := JStr "postgres:app" |}.

Definition example_insert : JsValue := JStr "INSERT INTO t(x) VALUES ($1)".

Definition example_query : JsValue := JStr "SELECT x FROM t WHERE id = $1".

(** The argument objects the methods build. *)
Definition load_args (connection : JsValue) : JsValue :=
  JObj [("db", connection)].

Definition statement_args (this : Database.t) (sql values : JsValue) : JsValue :=
  JObj [("db", Database.connection this); ("sql", sql); ("values", values)].

Definition close_args (this : Database.t) : JsValue :=
  JObj [("db", Database.connection this)].

(** [QueryResult], as a predicate on values: exactly the two fields, both
    numbers. *)
Definition is_number (v : JsValue) : bool :=
  match v with JNum _ => true | _ => false end.

Definition is_QueryResult (v : JsValue) : bool :=
  match v with
  | JObj fields =>
      (length fields =? 2)%nat
      && is_number (lookup_field "rowsAffected" fields)
      && is_number (lookup_field "lastInsertId" fields)
  | _ => false
  end.

(** ** The four operations, uniformly *)

Inductive Op : Type :=
| OpLoad (connection : JsValue)
| OpExecute (this : Database.t) (sql bindValues : JsValue)
| OpSelect (this : Database.t) (sql bindValues : JsValue)
| OpClose (this : Database.t).

(** What an operation hands back: a handle ([load]) or a value. *)
Inductive Result : Type :=
| Handle (db : Database.t)
| Value (v : JsValue).

Definition outcome_map {A B} (f : A -> B) (o : Outcome A) : Outcome B :=
  match o with
  | Returned a => Returned (f a)
  | Thrown e => Thrown e
  end.

Definition perform (op : Op) : Prog (Outcome Result) :=
  match op with
  | OpLoad connection =>
      prog_bind (Database.load connection tt) (fun r => Done (outcome_map Handle (fst r)))
  | OpExecute this sql bindValues =>
      prog_bind (Database.execute sql bindValues this) (fun r => Done (outcome_map Value (fst r)))
  | OpSelect this sql bindValues =>
      prog_bind (Database.select sql bindValues this) (fun r => Done (outcome_map Value (fst r)))
  | OpClose this =>
      prog_bind (Database.close this) (fun r => Done (outcome_map Value (fst r)))
  end.

(** The one invocation an operation makes. *)
Definition op_invocation (op : Op) : Invocation :=
  match op with
  | OpLoad connection => ("plugin:sql|load", load_args connection)
  | OpExecute this sql bindValues =>
      ("plugin:sql|execute", statement_args this sql (nullish bindValues (JArr [])))
  | OpSelect this sql bindValues =>
      ("plugin:sql|select", statement_args this sql (nullish bindValues (JArr [])))
  | OpClose this => ("plugin:sql|close", close_args this)
  end.

(** The type the source declares for the answer of each command:
    [invoke<string>], [invoke<[number, number]>], [invoke<T>] for the
    caller's [T], [invoke<boolean>]. *)
Definition answer_as_declared (T : JsValue -> Prop) (op : Op) (v : JsValue) : Prop :=
  match op with
  | OpLoad _ => exists s, v = JStr s
  | OpExecute _ _ _ => exists rows id, v = JArr [JNum rows; JNum id]
  | OpSelect _ _ _ => T v
  | OpClose _ => exists b, v = JBool b
  end.

(** [_conn as DbConnection]: the cast [load] applies to the answer is not
    checked; it holds when the answered string is a [DbConnection].  The
    other operations cast nothing. *)
Definition cast_holds (op : Op) (v : JsValue) : Prop :=
  match op with
  | OpLoad _ => forall s, v = JStr s -> is_DbConnection s = true
  | _ => True
  end.

(** The type the source declares for the result of each operation:
    [Database], [QueryResult], [T], [boolean]. *)
Definition result_well_typed (T : JsValue -> Prop) (op : Op) (r : Result) : Prop :=
  match op, r with
  | OpLoad _, Handle db => exists s, Database.connection db = JStr s /\ is_DbConnection s = true
  | OpExecute _ _ _, Value v => is_QueryResult v = true
  | OpSelect _ _ _, Value v => T v
  | OpClose _, Value v => exists b, v = JBool b
  | _, _ => False
  end.

(** An outcome that is a well-typed result, or else the error of a backend
    that rejected. *)
Definition well_typed_or_backend_error
    (T : JsValue -> Prop) (op : Op) (answer : Settled) (outcome : Outcome Result) : Prop :=
  (exists result, outcome = Returned result /\ result_well_typed T op result)
  \/ (exists e, answer = Rejected e /\ outcome = Thrown e).

(** ** Calling code

    The documented use of the class: a handle from [load], then a method on
    it; and two methods in a row on one handle. *)

(** [obj.m(...)], called from another body. *)
Definition on {T A} (obj : Database.t) (m : Js Database.t A) : Js T A :=
  fun ctx => prog_bind (m obj) (fun r => Done (fst r, ctx)).

(** [const db = await Database.load(connection);
     return await db.execute(sql, bindValues);] *)
Definition load_then_execute (connection sql bindValues : JsValue) : Js unit JsValue :=
  let* db := Database.load connection in
  on db (Database.execute sql bindValues).

(** [await db.close(); return await db.execute(sql, bindValues);] with [db]
    as [this]. *)
Definition close_then_execute (sql bindValues : JsValue) : Js Database.t JsValue :=
  let* _ := Database.close in
  Database.execute sql bindValues.

(** The keys of an object, in order. *)
Definition keys (o : JsValue) : list string :=
  match o with
  | JObj fields => fields.*1
  | _ => []
  end.

(** ** What each method does against any backend *)

Section Facade.

Context {W : Type} (backend : Backend W).

Lemma run_new {T} (connection : JsValue) (ctx : T) (w : W) :
  run backend (Database.new connection ctx) w
  = (Returned {| Database.connection := connection |}, ctx, w, []).
Proof. reflexivity. Qed.

Lemma run_load (connection : JsValue) (w w' : W) (r : Settled) :
  backend "plugin:sql|load" (load_args connection) w = (r, w') ->
  run backend (Database.load connection tt) w
  = (match r with
     | Resolved v => Returned {| Database.connection := v |}
     | Rejected e => Thrown e
     end, tt, w', [("plugin:sql|load", load_args connection)]).
Proof.
  intros Hr. unfold Database.load, await, invoke, bind. simpl.
  unfold load_args in Hr. rewrite Hr. destruct r; reflexivity.
Qed.

Lemma run_execute (this : Database.t) (sql bindValues : JsValue) (w w' : W) (r : Settled) :
  backend "plugin:sql|execute" (statement_args this sql (nullish bindValues (JArr []))) w = (r, w') ->
  run backend (Database.execute sql bindValues this) w
  = (match r with
     | Resolved v =>
         match iterate v with
         | Some items =>
             Returned (JObj [("lastInsertId", default JUndefined (items !! 1%nat));
                             ("rowsAffected", default JUndefined (items !! 0%nat))])
         | None => Thrown (TypeError "value is not iterable")
         end
     | Rejected e => Thrown e
     end, this, w', [("plugin:sql|execute", statement_args this sql (nullish bindValues (JArr [])))]).
Proof.
  intros Hr. unfold Database.execute, await, invoke, bind, read_this. simpl.
  unfold statement_args in Hr. rewrite Hr.
  destruct r as [v|e]; simpl; [|reflexivity].
  unfold destructure2. destruct (iterate v); reflexivity.
Qed.

Lemma run_select (this : Database.t) (sql bindValues : JsValue) (w w' : W) (r : Settled) :
  backend "plugin:sql|select" (statement_args this sql (nullish bindValues (JArr []))) w = (r, w') ->
  run backend (Database.select sql bindValues this) w
  = (match r with
     | Resolved v => Returned v
     | Rejected e => Thrown e
     end, this, w', [("plugin:sql|select", statement_args this sql (nullish bindValues (JArr [])))]).
Proof.
  intros Hr. unfold Database.select, await, invoke, bind, read_this. simpl.
  unfold statement_args in Hr. rewrite Hr. destruct r; reflexivity.
Qed.

Lemma run_close (this : Database.t) (w w' : W) (r : Settled) :
  backend "plugin:sql|close" (close_args this) w = (r, w') ->
  run backend (Database.close this) w
  = (match r with
     | Resolved v => Returned v
     | Rejected e => Thrown e
     end, this, w', [("plugin:sql|close", close_args this)]).
Proof.
  intros Hr. unfold Database.close, await, invoke, bind, read_this. simpl.
  unfold close_args in Hr. rewrite Hr. destruct r; reflexivity.
Qed.

End Facade.

(** ** The invocation log of each method, whatever the backend answers *)

Section Logs.

Context {W : Type} (backend : Backend W).

Lemma log_execute (this : Database.t) (sql bindValues : JsValue) (w : W) :
  (run backend (Database.execute sql bindValues this) w).2
  = [("plugin:sql|execute", statement_args this sql (nullish bindValues (JArr [])))].
Proof.
  destruct (backend "plugin:sql|execute"
              (statement_args this sql (nullish bindValues (JArr []))) w) as [r w'] eqn:E.
  by rewrite (run_execute backend _ _ _ _ _ _ E).
Qed.

Lemma log_select (this : Database.t) (sql bindValues : JsValue) (w : W) :
  (run backend (Database.select sql bindValues this) w).2
  = [("plugin:sql|select", statement_args this sql (nullish bindValues (JArr [])))].
Proof.
  destruct (backend "plugin:sql|select"
              (statement_args this sql (nullish bindValues (JArr []))) w) as [r w'] eqn:E.
  by rewrite (run_select backend _ _ _ _ _ _ E).
Qed.

Lemma log_close (this : Database.t) (w : W) :
  (run backend (Database.close this) w).2 = [("plugin:sql|close", close_args this)].
Proof.
  destruct (backend "plugin:sql|close" (close_args this) w) as [r w'] eqn:E.
  by rewrite (run_close backend _ _ _ _ E).
Qed.

Lemma log_load (connection : JsValue) (w : W) :
  (run backend (Database.load connection tt) w).2 = [("plugin:sql|load", load_args connection)].
Proof.
  destruct (backend "plugin:sql|load" (load_args connection) w) as [r w'] eqn:E.
  by rewrite (run_load backend _ _ _ _ E).
Qed.

(** The object a method ran on, as the method leaves it. *)
Lemma this_after_execute (this : Database.t) (sql bindValues : JsValue) (w : W) :
  (run backend (Database.execute sql bindValues this) w).1.1.2 = this.
Proof.
  destruct (backend "plugin:sql|execute"
              (statement_args this sql (nullish bindValues (JArr []))) w) as [r w'] eqn:E.
  by rewrite (run_execute backend _ _ _ _ _ _ E).
Qed.

Lemma this_after_select (this : Database.t) (sql bindValues : JsValue) (w : W) :
  (run backend (Database.select sql bindValues this) w).1.1.2 = this.
Proof.
  destruct (backend "plugin:sql|select"
              (statement_args this sql (nullish bindValues (JArr []))) w) as [r w'] eqn:E.
  by rewrite (run_select backend _ _ _ _ _ _ E).
Qed.

Lemma this_after_close (this : Database.t) (w : W) :
  (run backend (Database.close this) w).1.1.2 = this.
Proof.
  destruct (backend "plugin:sql|close" (close_args this) w) as [r w'] eqn:E.
  by rewrite (run_close backend _ _ _ _ E).
Qed.

End Logs.

(** ** The facade's contract *)

Section Contract.

Context {W : Type} (backend : Backend W).

(** C1: when the backend answers an execute command with the ordered pair
    [[rows, id]], [execute] returns the record whose [rowsAffected] is [rows]
    and whose [lastInsertId] is [id], with no other field; it made that one
    invocation and left the handle as it was. *)
Theorem execute_returns_backend_pair
    (this : Database.t) (sql bindValues rows id : JsValue) (w w' : W) :
  backend "plugin:sql|execute" (statement_args this sql (nullish bindValues (JArr []))) w
  = (Resolved (JArr [rows; id]), w') ->
  exists result,
    run backend (Database.execute sql bindValues this) w
    = (Returned result, this, w',
       [("plugin:sql|execute", statement_args this sql (nullish bindValues (JArr [])))])
    /\ result = JObj [("lastInsertId", id); ("rowsAffected", rows)]
    /\ get_field "rowsAffected" result = rows
    /\ get_field "lastInsertId" result = id.
Proof.
  intros Hr. eexists. split; [exact (run_execute backend _ _ _ _ _ _ Hr)|].
  by simpl.
Qed.

(** C2: [get(c)] returns a handle whose connection is [c], invokes nothing
    and leaves the backend as it was; the handle's first [execute] or
    [select] is the first invocation, and it names [c]. *)
Theorem get_returns_handle_without_invocation (c : string) (w : W) :
  let handle := {| Database.connection := JStr c |} in
  run backend (Database.get (JStr c) tt) w = (Returned handle, tt, w, [])
  /\ (forall sql bindValues w0,
        (run backend (Database.execute sql bindValues handle) w0).2
        = [("plugin:sql|execute",
            JObj [("db", JStr c); ("sql", sql); ("values", nullish bindValues (JArr []))])])
  /\ (forall sql bindValues w0,
        (run backend (Database.select sql bindValues handle) w0).2
        = [("plugin:sql|select",
            JObj [("db", JStr c); ("sql", sql); ("values", nullish bindValues (JArr []))])]).
Proof.
  intros handle. split; [reflexivity|]. split; intros sql bindValues w0.
  - apply log_execute.
  - apply log_select.
Qed.

(** C3: [load(c)] makes exactly one invocation, the load command with [c];
    when it is rejected, [load] throws the same reason and returns no
    handle; when it resolves, [load] returns a handle whose connection is
    the value the backend answered. *)
Theorem load_invokes_once (c : string) (w w' : W) (answer : Settled) :
  backend "plugin:sql|load" (JObj [("db", JStr c)]) w = (answer, w') ->
  run backend (Database.load (JStr c) tt) w
  = (match answer with
     | Resolved v => Returned {| Database.connection := v |}
     | Rejected e => Thrown e
     end, tt, w', [("plugin:sql|load", JObj [("db", JStr c)])]).
Proof. intros Hr. exact (run_load backend _ _ _ _ Hr). Qed.

(** C4: when the backend answers a select command with a value, [select]
    returns exactly that value; it made that one invocation and nothing
    else. *)
Theorem select_returns_backend_value
    (this : Database.t) (sql bindValues rows : JsValue) (w w' : W) :
  backend "plugin:sql|select" (statement_args this sql (nullish bindValues (JArr []))) w
  = (Resolved rows, w') ->
  run backend (Database.select sql bindValues this) w
  = (Returned rows, this, w',
     [("plugin:sql|select", statement_args this sql (nullish bindValues (JArr [])))]).
Proof. intros Hr. exact (run_select backend _ _ _ _ _ _ Hr). Qed.

(** C9: [execute] and [select] with [bindValues] left out (that is,
    [undefined]) are the same computations as with an empty list, and the
    backend receives an empty [values] array. *)
Theorem omitted_bind_values_are_empty (sql : JsValue) :
  Database.execute sql JUndefined = Database.execute sql (JArr [])
  /\ Database.select sql JUndefined = Database.select sql (JArr [])
  /\ (forall this w,
        run backend (Database.execute sql JUndefined this) w
        = run backend (Database.execute sql (JArr []) this) w
        /\ (run backend (Database.execute sql JUndefined this) w).2
           = [("plugin:sql|execute",
               JObj [("db", Database.connection this); ("sql", sql); ("values", JArr [])])])
  /\ (forall this w,
        run backend (Database.select sql JUndefined this) w
        = run backend (Database.select sql (JArr []) this) w
        /\ (run backend (Database.select sql JUndefined this) w).2
           = [("plugin:sql|select",
               JObj [("db", Database.connection this); ("sql", sql); ("values", JArr [])])]).
Proof.
  repeat split; try reflexivity.
  - apply log_execute.
  - apply log_select.
Qed.

(** C10: a handle's connection is the string its constructor was given,
    whatever the string, and the constructor neither throws nor invokes;
    [execute], [select] and [close] leave the handle they run on as it
    was. *)
Theorem connection_is_stored_and_kept :
  (forall (c : string) (w : W),
      run backend (Database.new (JStr c) tt) w
      = (Returned {| Database.connection := JStr c |}, tt, w, []))
  /\ (forall this sql bindValues w,
        (run backend (Database.execute sql bindValues this) w).1.1.2 = this)
  /\ (forall this sql bindValues w,
        (run backend (Database.select sql bindValues this) w).1.1.2 = this)
  /\ (forall this w,
        (run backend (Database.close this) w).1.1.2 = this).
Proof.
  split; [reflexivity|].
  split; [apply this_after_execute|].
  split; [apply this_after_select|apply this_after_close].
Qed.

End Contract.

(** ** Sequencing and the log *)

Lemma run_prog_bind {W A B} (backend : Backend W) (p : Prog A) (f : A -> Prog B) (w : W) :
  run backend (prog_bind p f) w
  = (let '(a, w1, log1) := run backend p w in
     let '(b, w2, log2) := run backend (f a) w1 in
     (b, w2, (log1 ++ log2)%list)).
Proof.
  revert w. induction p as [a | cmd args k IH]; intros w; simpl.
  - by destruct (run backend (f a) w) as [[b w2] log2].
  - destruct (backend cmd args w) as [r w1]. rewrite IH.
    destruct (run backend (k r) w1) as [[a w2] log1].
    by destruct (run backend (f a) w2) as [[b w3] log2].
Qed.

Lemma prefix_split (p s : string) :
  String.prefix p s = true -> exists rest, s = (p ++ rest)%string.
Proof.
  revert s. induction p as [|a p IH]; intros s Hp.
  - by exists s.
  - destruct s as [|b s]; [discriminate|].
    change (String.prefix (String a p) (String b s))
      with (if ascii_dec a b then String.prefix p s else false) in Hp.
    destruct (ascii_dec a b) as [->|]; [|discriminate].
    destruct (IH s Hp) as [rest ->]. by exists rest.
Qed.

Lemma DbConnection_form (c : string) :
  is_DbConnection c = true ->
  exists scheme address,
    scheme ∈ ["sqlite"; "postgres"; "mysql"] /\ c = (scheme ++ ":" ++ address)%string.
Proof.
  unfold is_DbConnection. rewrite existsb_exists.
  intros (scheme & Hin & Hp). destruct (prefix_split _ _ Hp) as [address Hc].
  exists scheme, address. split.
  - by apply list_elem_of_In.
  - rewrite Hc. clear. induction scheme as [|a scheme IH]; [done|].
    change (String a scheme +:+ ":" +:+ address)
      with (String a (scheme +:+ ":" +:+ address)).
    by rewrite <- IH.
Qed.

Section Errors.

Context {W : Type} (backend : Backend W).

(** C6, as the code has it: each of [load], [execute], [select] and [close]
    makes its one invocation and then either returns or throws, never both.
    When the backend rejects, the operation throws the backend's reason
    itself, and it returns a result only when the backend resolved.  The
    answer's type is not checked: [load] wraps the answered value in a
    handle, [select] and [close] return it as it is, [execute] builds its
    record from the first two items and throws a [TypeError] of its own
    when the answer is not iterable.  So the result has the type the source
    declares for the operation when the answer has the type the source
    declares for the command and, for [load], the cast to [DbConnection]
    holds. *)
Theorem facade_relays_backend_outcome
    (T : JsValue -> Prop) (op : Op) (w w' : W) (answer : Settled) :
  backend (op_invocation op).1 (op_invocation op).2 w = (answer, w') ->
  exists outcome,
    run backend (perform op) w = (outcome, w', [op_invocation op])
    /\ (forall e, answer = Rejected e -> outcome = Thrown e)
    /\ (forall result, outcome = Returned result -> exists v, answer = Resolved v)
    /\ (forall v, answer = Resolved v ->
        match op with
        | OpLoad _ => outcome = Returned (Handle {| Database.connection := v |})
        | OpExecute _ _ _ =>
            match iterate v with
            | Some items =>
                outcome
                = Returned (Value (JObj [("lastInsertId", default JUndefined (items !! 1%nat));
                                         ("rowsAffected", default JUndefined (items !! 0%nat))]))
            | None => outcome = Thrown (TypeError "value is not iterable")
            end
        | OpSelect _ _ _ | OpClose _ => outcome = Returned (Value v)
        end)
    /\ (forall v, answer = Resolved v -> answer_as_declared T op v -> cast_holds op v ->
        exists result, outcome = Returned result /\ result_well_typed T op result).
Proof.
  intros Hr. destruct op as [c | this sql bv | this sql bv | this]; simpl in Hr;
    unfold perform; rewrite run_prog_bind.
  - rewrite (run_load backend _ _ _ _ Hr). simpl. eexists. split; [reflexivity|].
    destruct answer as [v|e]; simpl; repeat split; try congruence; eauto.
    intros v' [= <-] [s ->] Hcast. eexists. split; [reflexivity|]. simpl. eauto.
  - rewrite (run_execute backend _ _ _ _ _ _ Hr). simpl. eexists. split; [reflexivity|].
    destruct answer as [v|e]; simpl; repeat split; try congruence; eauto.
    + intros v' [= <-]. by destruct (iterate v).
    + intros v' [= <-] (rows & id & ->) _. simpl. eexists. split; [reflexivity|]. done.
  - rewrite (run_select backend _ _ _ _ _ _ Hr). simpl. eexists. split; [reflexivity|].
    destruct answer as [v|e]; simpl; repeat split; try congruence; eauto.
    intros v' [= <-] HT _. eexists. split; [reflexivity|]. done.
  - rewrite (run_close backend _ _ _ _ Hr). simpl. eexists. split; [reflexivity|].
    destruct answer as [v|e]; simpl; repeat split; try congruence; eauto.
    intros v' [= <-] (b & ->) _. eexists. split; [reflexivity|]. simpl. eauto.
Qed.

(** C7: a string of type [DbConnection] is a scheme, a colon and an
    address, the scheme being sqlite, postgres or mysql; [load] sends it to
    the backend as it is, [get] stores it as it is, and the handle's
    [execute], [select] and [close] send it as it is. *)
Theorem descriptor_has_scheme_and_is_passed_verbatim (c : string) :
  is_DbConnection c = true ->
  (exists scheme address,
      scheme ∈ ["sqlite"; "postgres"; "mysql"] /\ c = (scheme ++ ":" ++ address)%string)
  /\ (forall w,
        (run backend (Database.load (JStr c) tt) w).2
        = [("plugin:sql|load", JObj [("db", JStr c)])])
  /\ (forall w,
        (run backend (Database.get (JStr c) tt) w).1.1.1
        = Returned {| Database.connection := JStr c |})
  /\ (forall sql bindValues w,
        get_field "db" <$> (run backend (Database.execute sql bindValues
                                            {| Database.connection := JStr c |}) w).2.*2
        = [JStr c])
  /\ (forall sql bindValues w,
        get_field "db" <$> (run backend (Database.select sql bindValues
                                           {| Database.connection := JStr c |}) w).2.*2
        = [JStr c])
  /\ (forall w,
        get_field "db" <$> (run backend (Database.close
                                           {| Database.connection := JStr c |}) w).2.*2
        = [JStr c]).
Proof.
  intros Hc. split; [by apply DbConnection_form|].
  split; [intros w; apply log_load|].
  split; [done|].
  split; [intros; by rewrite log_execute|].
  split; [intros; by rewrite log_select|].
  intros; by rewrite log_close.
Qed.

End Errors.

(** ** The facade against the core of the design document *)

Section AgainstCore.

Context {D : Type} (drivers : Core.Drivers D).

Lemma core_execute_normalized (d : Core.ConnectionDescriptor) (sql : string)
    (params : list JsValue) (st st' : Core.State D) (rows id : Z) :
  Core.execute drivers d sql params st = (inr (rows, id), st') ->
  Core.has_last_insert_id (Core.resolve (Core.scheme d)) = false ->
  id = 0.
Proof.
  unfold Core.execute. intros Hex Hdrv.
  destruct (Core.acquire drivers d st) as [e|st1]; [discriminate|].
  destruct (forallb Core.bindable params); [|discriminate].
  destruct (Core.drv_execute drivers _ _ _ _ _) as [[message|native] w]; [discriminate|].
  unfold Core.normalize in Hex. rewrite Hdrv in Hex. congruence.
Qed.

Lemma core_answers_execute (this : Database.t) (c : string) (d : Core.ConnectionDescriptor)
    (sql values : JsValue) (st : Core.State D) :
  Database.connection this = JStr c ->
  Core.parse c = inr d ->
  Core.backend drivers "plugin:sql|execute" (statement_args this sql values) st
  = match sql, values with
    | JStr text, JArr params =>
        match Core.execute drivers d text params st with
        | (inl e, st') => Core.reject e st'
        | (inr (rows, id), st') => (Resolved (JArr [JNum rows; JNum id]), st')
        end
    | _, _ => Core.reject Core.MalformedRequest st
    end.
Proof.
  intros Hc Hd. unfold Core.backend, statement_args.
  change (String.eqb "plugin:sql|execute" "plugin:sql|load") with false.
  change (String.eqb "plugin:sql|execute" "plugin:sql|execute") with true.
  cbv iota.
  change (get_field "db" (JObj [("db", Database.connection this); ("sql", sql); ("values", values)]))
    with (Database.connection this).
  change (get_field "sql" (JObj [("db", Database.connection this); ("sql", sql); ("values", values)]))
    with sql.
  change (get_field "values" (JObj [("db", Database.connection this); ("sql", sql); ("values", values)]))
    with values.
  rewrite Hc, Hd. destruct sql; try reflexivity.
Qed.

(** C8: against the core of the design document, for a handle whose
    descriptor selects a driver without a last-inserted id, whatever
    [execute] returns is a QueryResult whose [lastInsertId] is 0. *)
Theorem execute_last_insert_id_zero_without_concept
    (this : Database.t) (c : string) (d : Core.ConnectionDescriptor)
    (sql bindValues result : JsValue) (st : Core.State D) :
  Database.connection this = JStr c ->
  Core.parse c = inr d ->
  Core.has_last_insert_id (Core.resolve (Core.scheme d)) = false ->
  (run (Core.backend drivers) (Database.execute sql bindValues this) st).1.1.1 = Returned result ->
  is_QueryResult result = true /\ get_field "lastInsertId" result = JNum 0.
Proof.
  intros Hc Hd Hdrv.
  destruct (Core.backend drivers "plugin:sql|execute"
              (statement_args this sql (nullish bindValues (JArr []))) st) as [answer st'] eqn:E.
  rewrite (run_execute _ _ _ _ _ _ _ E). simpl.
  rewrite (core_answers_execute _ _ _ _ _ _ Hc Hd) in E.
  destruct sql as [| | | |text| |]; try (injection E as <- _; discriminate).
  destruct (nullish bindValues (JArr [])) as [| | | | |params|];
    try (injection E as <- _; discriminate).
  destruct (Core.execute drivers d text params st) as [[e|[rows id]] st1] eqn:Hex.
  - injection E as <- _. discriminate.
  - injection E as <- _. simpl. intros [= <-].
    rewrite (core_execute_normalized _ _ _ _ _ _ _ Hex Hdrv). done.
Qed.

(** A "postgres:" descriptor selects the Postgres driver, which has no
    last-inserted id. *)
Lemma postgres_descriptor_lacks_last_insert_id (address : string) :
  Core.parse ("postgres:" +:+ address)
  = inr {| Core.scheme := Core.postgres; Core.address := address |}
  /\ Core.has_last_insert_id (Core.resolve Core.postgres) = false.
Proof. split; reflexivity. Qed.

(** Through the facade, [close] leaves every pool but the handle's own in
    the Pool Table. *)
Lemma close_keeps_other_pools (this : Database.t) (c : string)
    (d other : Core.ConnectionDescriptor) (st : Core.State D) :
  Database.connection this = JStr c ->
  Core.parse c = inr d ->
  other <> d ->
  Core.pools (run (Core.backend drivers) (Database.close this) st).1.2 !! other
  = Core.pools st !! other.
Proof.
  intros Hc Hd Hne.
  destruct (Core.backend drivers "plugin:sql|close" (close_args this) st) as [answer st'] eqn:E.
  rewrite (run_close _ _ _ _ _ E). simpl.
  unfold Core.backend, close_args in E.
  change (String.eqb "plugin:sql|close" "plugin:sql|load") with false in E.
  change (String.eqb "plugin:sql|close" "plugin:sql|execute") with false in E.
  change (String.eqb "plugin:sql|close" "plugin:sql|select") with false in E.
  change (String.eqb "plugin:sql|close" "plugin:sql|close") with true in E.
  cbv iota in E.
  change (get_field "db" (JObj [("db", Database.connection this)]))
    with (Database.connection this) in E.
  rewrite Hc, Hd in E. unfold Core.close in E.
  destruct (Core.pools st !! d); injection E as _ <-; simpl; [|done].
  by rewrite lookup_delete_ne.
Qed.

End AgainstCore.

(** C5: [close] takes no descriptor: on every handle and against every
    backend its one invocation names the handle's own connection.  So
    [close()] on the handle of "sqlite:a.db", with the pools of
    "sqlite:a.db" and "sqlite:b.db" open, closes the first and leaves the
    second in the Pool Table: the descriptor cannot be left out, and the
    facade never closes every pool. *)
Theorem close_always_names_its_own_pool :
  (forall (W : Type) (backend : Backend W) (this : Database.t) (w : W),
      (run backend (Database.close this) w).2
      = [("plugin:sql|close", JObj [("db", Database.connection this)])])
  /\ run (Core.backend example_drivers)
         (Database.close {| Database.connection := JStr "sqlite:a.db" |}) two_pools
     = (Returned (JBool true),
        {| Database.connection := JStr "sqlite:a.db" |},
        {| Core.pools := <[pool_b := example_pool]> ∅; Core.world := tt |},
        [("plugin:sql|close", JObj [("db", JStr "sqlite:a.db")])]).
Proof.
  split.
  - intros W backend this w. apply log_close.
  - vm_compute. reflexivity.
Qed.

(** ** Answers outside the declared types

    What [execute] does with an answer that is not a pair of numbers: the
    declared type is not checked at run time. *)

Example execute_short_answer :
  (run scripted (Database.execute example_insert JUndefined example_handle)
       [Resolved (JArr [JNum 1])]).1.1.1
  = Returned (JObj [("lastInsertId", JUndefined); ("rowsAffected", JNum 1)]).
Proof. reflexivity. Qed.

Example execute_answer_not_iterable :
  (run scripted (Database.execute example_insert JUndefined example_handle)
       [Resolved JNull]).1.1.1
  = Thrown (TypeError "value is not iterable").
Proof. reflexivity. Qed.

Example load_answer_not_a_descriptor :
  (run scripted (Database.load (JStr "sqlite:test.db") tt) [Resolved (JStr "elsewhere")]).1.1.1
  = Returned {| Database.connection := JStr "elsewhere" |}
  /\ is_DbConnection "elsewhere" = false.
Proof. split; reflexivity. Qed.

(** ** The theorems at concrete inputs *)

(** [execute] of an insert, answered with one affected row and id 7. *)
Lemma execute_returns_backend_pair_witness :
  exists result,
    run scripted (Database.execute example_insert (JArr [JNum 5]) example_handle)
        [Resolved (JArr [JNum 1; JNum 7])]
    = (Returned result, example_handle, [],
       [("plugin:sql|execute",
         statement_args example_handle example_insert (nullish (JArr [JNum 5]) (JArr [])))])
    /\ result = JObj [("lastInsertId", JNum 7); ("rowsAffected", JNum 1)]
    /\ get_field "rowsAffected" result = JNum 1
    /\ get_field "lastInsertId" result = JNum 7.
Proof.
  apply (execute_returns_backend_pair scripted example_handle example_insert (JArr [JNum 5])
           (JNum 1) (JNum 7) [Resolved (JArr [JNum 1; JNum 7])] []).
  reflexivity.
Defined.

(** [load] against a backend that cannot open the database. *)
Lemma load_invokes_once_witness :
  run scripted (Database.load (JStr "sqlite:test.db") tt) [Rejected (JStr "unable to open")]
  = (Thrown (JStr "unable to open"), tt, [],
     [("plugin:sql|load", JObj [("db", JStr "sqlite:test.db")])]).
Proof.
  apply (load_invokes_once scripted "sqlite:test.db" [Rejected (JStr "unable to open")] []
           (Rejected (JStr "unable to open"))).
  reflexivity.
Defined.

(** [select] answered with one row. *)
Lemma select_returns_backend_value_witness :
  run scripted (Database.select example_query (JArr [JNum 1]) example_handle)
      [Resolved (JArr [JObj [("x", JNum 5)]])]
  = (Returned (JArr [JObj [("x", JNum 5)]]), example_handle, [],
     [("plugin:sql|select",
       statement_args example_handle example_query (nullish (JArr [JNum 1]) (JArr [])))]).
Proof.
  apply (select_returns_backend_value scripted example_handle example_query (JArr [JNum 1])
           (JArr [JObj [("x", JNum 5)]]) [Resolved (JArr [JObj [("x", JNum 5)]])] []).
  reflexivity.
Defined.

(** [execute] of an insert, answered with a pair of numbers: the result is
    a QueryResult. *)
Lemma facade_relays_backend_outcome_witness :
  exists result,
    run scripted (perform (OpExecute example_handle example_insert JUndefined))
        [Resolved (JArr [JNum 1; JNum 7])]
    = (Returned result, [], [op_invocation (OpExecute example_handle example_insert JUndefined)])
    /\ result_well_typed (fun _ => True)
         (OpExecute example_handle example_insert JUndefined) result.
Proof.
  destruct (facade_relays_backend_outcome scripted (fun _ => True)
              (OpExecute example_handle example_insert JUndefined)
              [Resolved (JArr [JNum 1; JNum 7])] [] (Resolved (JArr [JNum 1; JNum 7]))
              eq_refl)
    as (outcome & Hrun & _ & _ & _ & Htyped).
  destruct (Htyped (JArr [JNum 1; JNum 7]) eq_refl
              (ex_intro _ 1 (ex_intro _ 7 eq_refl)) I)
    as (result & Hout & Hwt).
  exists result. split; [|exact Hwt].
  rewrite Hrun, Hout. reflexivity.
Defined.

(** C6 without the condition on the answer's type fails.  [load] answered with a string that is
    no [DbConnection], [execute] answered with one item, and [close]
    answered with [null] each return a result that is not well-typed;
    [execute] answered with [null] throws an error that is not the
    backend's, which resolved. *)
Lemma facade_result_not_always_well_typed :
  (answer_as_declared (fun _ => True) (OpLoad (JStr "sqlite:test.db")) (JStr "elsewhere")
   /\ (run scripted (perform (OpLoad (JStr "sqlite:test.db"))) [Resolved (JStr "elsewhere")]).1.1
      = Returned (Handle {| Database.connection := JStr "elsewhere" |})
   /\ ~ well_typed_or_backend_error (fun _ => True) (OpLoad (JStr "sqlite:test.db"))
         (Resolved (JStr "elsewhere"))
         (run scripted (perform (OpLoad (JStr "sqlite:test.db")))
              [Resolved (JStr "elsewhere")]).1.1)
  /\ ((run scripted (perform (OpExecute example_handle example_insert JUndefined))
           [Resolved (JArr [JNum 1])]).1.1
      = Returned (Value (JObj [("lastInsertId", JUndefined); ("rowsAffected", JNum 1)]))
      /\ ~ well_typed_or_backend_error (fun _ => True)
            (OpExecute example_handle example_insert JUndefined) (Resolved (JArr [JNum 1]))
            (run scripted (perform (OpExecute example_handle example_insert JUndefined))
                 [Resolved (JArr [JNum 1])]).1.1)
  /\ ((run scripted (perform (OpClose example_handle)) [Resolved JNull]).1.1
      = Returned (Value JNull)
      /\ ~ well_typed_or_backend_error (fun _ => True) (OpClose example_handle)
            (Resolved JNull)
            (run scripted (perform (OpClose example_handle)) [Resolved JNull]).1.1)
  /\ ((run scripted (perform (OpExecute example_handle example_insert JUndefined))
           [Resolved JNull]).1.1
      = Thrown (TypeError "value is not iterable")
      /\ ~ well_typed_or_backend_error (fun _ => True)
            (OpExecute example_handle example_insert JUndefined) (Resolved JNull)
            (run scripted (perform (OpExecute example_handle example_insert JUndefined))
                 [Resolved JNull]).1.1).
Proof.
  repeat split; try (by eexists).
  - intros [(result & [= <-] & (s & [= <-] & Hs)) | (e & [=] & _)]. discriminate.
  - intros [(result & [= <-] & Hwt) | (e & [=] & _)]. discriminate.
  - intros [(result & [= <-] & (b & [=])) | (e & [=] & _)].
  - intros [(result & [=] & _) | (e & [=] & _)].
Qed.

(** The descriptor "sqlite:test.db". *)
Lemma descriptor_has_scheme_and_is_passed_verbatim_witness :
  is_DbConnection "sqlite:test.db" = true
  /\ exists scheme address,
       scheme ∈ ["sqlite"; "postgres"; "mysql"]
       /\ "sqlite:test.db" = (scheme ++ ":" ++ address)%string.
Proof.
  split; [reflexivity|].
  apply (descriptor_has_scheme_and_is_passed_verbatim scripted "sqlite:test.db").
  reflexivity.
Defined.

(** An insert through a Postgres handle: the driver's own id, 42, is not
    what the caller sees. *)
Lemma execute_last_insert_id_zero_without_concept_witness :
  (run (Core.backend example_drivers)
       (Database.execute example_insert (JArr [JNum 5]) postgres_handle) no_pools).1.1.1
  = Returned (JObj [("lastInsertId", JNum 0); ("rowsAffected", JNum 3)])
  /\ is_QueryResult (JObj [("lastInsertId", JNum 0); ("rowsAffected", JNum 3)]) = true
  /\ get_field "lastInsertId" (JObj [("lastInsertId", JNum 0); ("rowsAffected", JNum 3)])
     = JNum 0.
Proof.
  split; [vm_compute; reflexivity|].
  apply (execute_last_insert_id_zero_without_concept example_drivers postgres_handle
           "postgres:app" {| Core.scheme := Core.postgres; Core.address := "app" |}
           example_insert (JArr [JNum 5])
           (JObj [("lastInsertId", JNum 0); ("rowsAffected", JNum 3)]) no_pools).
  - reflexivity.
  - reflexivity.
  - reflexivity.
  - vm_compute. reflexivity.
Defined.

(** ** Beyond the contract: answers of any shape, and calls in a row *)

Section Shapes.

Context {W : Type} (backend : Backend W).

(** X1: whatever the backend answers, a result [execute] returns is an
    object with exactly the two keys [lastInsertId] and [rowsAffected]; it
    returns one only when the backend resolved with an array or a string. *)
Theorem execute_result_has_two_keys
    (this : Database.t) (sql bindValues result : JsValue) (w : W) :
  (run backend (Database.execute sql bindValues this) w).1.1.1 = Returned result ->
  keys result = ["lastInsertId"; "rowsAffected"]
  /\ exists v items,
       (backend "plugin:sql|execute"
          (statement_args this sql (nullish bindValues (JArr []))) w).1 = Resolved v
       /\ iterate v = Some items.
Proof.
  destruct (backend "plugin:sql|execute"
              (statement_args this sql (nullish bindValues (JArr []))) w) as [answer w'] eqn:E.
  rewrite (run_execute backend _ _ _ _ _ _ E). simpl.
  destruct answer as [v|e]; [|discriminate].
  destruct (iterate v) as [items|] eqn:Hv; [|discriminate].
  intros [= <-]. split; [reflexivity|]. by exists v, items.
Qed.

(** X2: when the backend answers an execute command with an array of any
    length, [execute] returns and never throws: [rowsAffected] is the first
    item and [lastInsertId] the second, a missing item reads [undefined],
    and items past the second are dropped. *)
Theorem execute_reads_first_two_items
    (this : Database.t) (sql bindValues : JsValue) (items : list JsValue) (w w' : W) :
  backend "plugin:sql|execute" (statement_args this sql (nullish bindValues (JArr []))) w
  = (Resolved (JArr items), w') ->
  exists result,
    (run backend (Database.execute sql bindValues this) w).1 = (Returned result, this, w')
    /\ keys result = ["lastInsertId"; "rowsAffected"]
    /\ get_field "rowsAffected" result = default JUndefined (items !! 0%nat)
    /\ get_field "lastInsertId" result = default JUndefined (items !! 1%nat).
Proof.
  intros Hr. rewrite (run_execute backend _ _ _ _ _ _ Hr). simpl.
  eexists. split; [reflexivity|]. by simpl.
Qed.

(** X3: when the backend resolves an execute command with a value that is
    not iterable ([undefined], [null], a boolean, a number or an object),
    [execute] throws a [TypeError] of its own; the invocation has been made
    and the backend is in the state the statement left. *)
Theorem execute_throws_on_answer_not_iterable
    (this : Database.t) (sql bindValues v : JsValue) (w w' : W) :
  backend "plugin:sql|execute" (statement_args this sql (nullish bindValues (JArr []))) w
  = (Resolved v, w') ->
  iterate v = None ->
  run backend (Database.execute sql bindValues this) w
  = (Thrown (TypeError "value is not iterable"), this, w',
     [("plugin:sql|execute", statement_args this sql (nullish bindValues (JArr [])))]).
Proof.
  intros Hr Hv. rewrite (run_execute backend _ _ _ _ _ _ Hr). by rewrite Hv.
Qed.

(** X4: [null] for [bindValues] is replaced by an empty list, in [execute]
    and in [select], as a left-out argument is. *)
Theorem null_bind_values_are_empty (sql : JsValue) (this : Database.t) (w : W) :
  run backend (Database.execute sql JNull this) w
  = run backend (Database.execute sql (JArr []) this) w
  /\ run backend (Database.select sql JNull this) w
     = run backend (Database.select sql (JArr []) this) w
  /\ get_field "values" <$> (run backend (Database.execute sql JNull this) w).2.*2
     = [JArr []]
  /\ get_field "values" <$> (run backend (Database.select sql JNull this) w).2.*2
     = [JArr []].
Proof.
  split; [reflexivity|]. split; [reflexivity|].
  split; [by rewrite log_execute|by rewrite log_select].
Qed.

(** X5: any [bindValues] other than [undefined] and [null] reaches the
    backend as it is, in [execute] and in [select]: [false], [0] and the
    empty string are not replaced, and a value that is no array is not
    refused. *)
Theorem present_bind_values_are_sent_as_given
    (sql bindValues : JsValue) (this : Database.t) (w : W) :
  bindValues <> JUndefined ->
  bindValues <> JNull ->
  get_field "values" <$> (run backend (Database.execute sql bindValues this) w).2.*2
  = [bindValues]
  /\ get_field "values" <$> (run backend (Database.select sql bindValues this) w).2.*2
     = [bindValues].
Proof.
  intros Hu Hn. rewrite log_execute, log_select.
  by destruct bindValues.
Qed.

(** X6: when the backend resolves a close command, [close] returns the very
    value it answered, boolean or not, after that one invocation and with
    the handle as it was. *)
Theorem close_returns_backend_value (this : Database.t) (v : JsValue) (w w' : W) :
  backend "plugin:sql|close" (JObj [("db", Database.connection this)]) w = (Resolved v, w') ->
  run backend (Database.close this) w
  = (Returned v, this, w', [("plugin:sql|close", JObj [("db", Database.connection this)])]).
Proof. intros Hr. exact (run_close backend _ _ _ _ Hr). Qed.

(** X7: when the backend answers [load(c)] with the descriptor [c] itself,
    the handle [load] returns is the handle [get(c)] returns. *)
Theorem load_returns_handle_of_get (c : string) (w w' : W) :
  backend "plugin:sql|load" (JObj [("db", JStr c)]) w = (Resolved (JStr c), w') ->
  (run backend (Database.load (JStr c) tt) w).1.1.1
  = (run backend (Database.get (JStr c) tt) w).1.1.1.
Proof. intros Hr. by rewrite (run_load backend _ _ _ _ Hr). Qed.

(** X8: [close] does not disable the handle.  When the backend resolves the
    close command, an [execute] that follows on the same handle is invoked
    as on a fresh handle, with the same descriptor, against the state the
    close left; when the backend rejects it, the reason is thrown and the
    [execute] is never invoked. *)
Theorem close_then_execute_invokes_again
    (this : Database.t) (sql bindValues : JsValue) (w w1 : W) (answer : Settled) :
  backend "plugin:sql|close" (close_args this) w = (answer, w1) ->
  run backend (close_then_execute sql bindValues this) w
  = match answer with
    | Resolved _ =>
        ((run backend (Database.execute sql bindValues this) w1).1,
         [("plugin:sql|close", close_args this);
          ("plugin:sql|execute", statement_args this sql (nullish bindValues (JArr [])))])
    | Rejected e => (Thrown e, this, w1, [("plugin:sql|close", close_args this)])
    end.
Proof.
  intros Hr. unfold close_then_execute, bind. rewrite run_prog_bind.
  rewrite (run_close backend _ _ _ _ Hr).
  destruct answer as [v|e]; [|reflexivity].
  pose proof (log_execute backend this sql bindValues w1) as Hlog.
  destruct (run backend (Database.execute sql bindValues this) w1) as [[o w2] log].
  simpl in *. by rewrite Hlog.
Qed.

(** X9: the handle [load] returns names what the backend answered, not what
    [load] was given: when the load command resolves with [v], an [execute]
    on the handle sends [v] as [db]; when it is rejected, the reason is
    thrown and the [execute] is never invoked. *)
Theorem load_then_execute_names_backend_answer
    (connection sql bindValues : JsValue) (w w1 : W) (answer : Settled) :
  backend "plugin:sql|load" (load_args connection) w = (answer, w1) ->
  run backend (load_then_execute connection sql bindValues tt) w
  = match answer with
    | Resolved v =>
        let handle := {| Database.connection := v |} in
        ((run backend (Database.execute sql bindValues handle) w1).1.1.1, tt,
         (run backend (Database.execute sql bindValues handle) w1).1.2,
         [("plugin:sql|load", JObj [("db", connection)]);
          ("plugin:sql|execute",
           JObj [("db", v); ("sql", sql); ("values", nullish bindValues (JArr []))])])
    | Rejected e => (Thrown e, tt, w1, [("plugin:sql|load", JObj [("db", connection)])])
    end.
Proof.
  intros Hr. unfold load_then_execute, bind. rewrite run_prog_bind.
  rewrite (run_load backend _ _ _ _ Hr).
  destruct answer as [v|e]; [|reflexivity].
  unfold on. rewrite run_prog_bind.
  pose proof (log_execute backend {| Database.connection := v |} sql bindValues w1) as Hlog.
  destruct (run backend (Database.execute sql bindValues {| Database.connection := v |}) w1)
    as [[[o this'] w2] log].
  simpl in *. by rewrite Hlog.
Qed.

End Shapes.

(** ** The properties above at concrete inputs *)

(** An insert answered with one affected row and id 7. *)
Lemma execute_result_has_two_keys_witness :
  keys (JObj [("lastInsertId", JNum 7); ("rowsAffected", JNum 1)])
  = ["lastInsertId"; "rowsAffected"]
  /\ exists v items,
       (scripted "plugin:sql|execute"
          (statement_args example_handle example_insert (nullish JUndefined (JArr [])))
          [Resolved (JArr [JNum 1; JNum 7])]).1 = Resolved v
       /\ iterate v = Some items.
Proof.
  apply (execute_result_has_two_keys scripted example_handle example_insert JUndefined
           (JObj [("lastInsertId", JNum 7); ("rowsAffected", JNum 1)])
           [Resolved (JArr [JNum 1; JNum 7])]).
  reflexivity.
Defined.

(** An answer of three items: the third is dropped. *)
Lemma execute_reads_first_two_items_witness :
  exists result,
    (run scripted (Database.execute example_insert JUndefined example_handle)
         [Resolved (JArr [JNum 1; JNum 7; JStr "more"])]).1
    = (Returned result, example_handle, [])
    /\ keys result = ["lastInsertId"; "rowsAffected"]
    /\ get_field "rowsAffected" result
       = default JUndefined ([JNum 1; JNum 7; JStr "more"] !! 0%nat)
    /\ get_field "lastInsertId" result
       = default JUndefined ([JNum 1; JNum 7; JStr "more"] !! 1%nat).
Proof.
  apply (execute_reads_first_two_items scripted example_handle example_insert JUndefined
           [JNum 1; JNum 7; JStr "more"] [Resolved (JArr [JNum 1; JNum 7; JStr "more"])] []).
  reflexivity.
Defined.

(** An execute command answered with [null]. *)
Lemma execute_throws_on_answer_not_iterable_witness :
  run scripted (Database.execute example_insert JUndefined example_handle) [Resolved JNull]
  = (Thrown (TypeError "value is not iterable"), example_handle, [],
     [("plugin:sql|execute",
       statement_args example_handle example_insert (nullish JUndefined (JArr [])))]).
Proof.
  apply (execute_throws_on_answer_not_iterable scripted example_handle example_insert
           JUndefined JNull [Resolved JNull] []).
  - reflexivity.
  - reflexivity.
Defined.

(** The number 0 given for [bindValues]. *)
Lemma present_bind_values_are_sent_as_given_witness :
  get_field "values"
    <$> (run scripted (Database.execute example_insert (JNum 0) example_handle) []).2.*2
  = [JNum 0]
  /\ get_field "values"
       <$> (run scripted (Database.select example_insert (JNum 0) example_handle) []).2.*2
     = [JNum 0].
Proof.
  apply (present_bind_values_are_sent_as_given scripted example_insert (JNum 0)
           example_handle []).
  - discriminate.
  - discriminate.
Defined.

(** A close command answered with [null]. *)
Lemma close_returns_backend_value_witness :
  run scripted (Database.close example_handle) [Resolved JNull]
  = (Returned JNull, example_handle, [],
     [("plugin:sql|close", JObj [("db", Database.connection example_handle)])]).
Proof.
  apply (close_returns_backend_value scripted example_handle JNull [Resolved JNull] []).
  reflexivity.
Defined.

(** A backend that answers [load] with the descriptor it was given. *)
Lemma load_returns_handle_of_get_witness :
  (run scripted (Database.load (JStr "sqlite:test.db") tt)
       [Resolved (JStr "sqlite:test.db")]).1.1.1
  = (run scripted (Database.get (JStr "sqlite:test.db") tt)
         [Resolved (JStr "sqlite:test.db")]).1.1.1.
Proof.
  apply (load_returns_handle_of_get scripted "sqlite:test.db"
           [Resolved (JStr "sqlite:test.db")] []).
  reflexivity.
Defined.

(** A close that succeeds, then an insert. *)
Lemma close_then_execute_invokes_again_witness :
  run scripted (close_then_execute example_insert JUndefined example_handle)
      [Resolved (JBool true); Resolved (JArr [JNum 1; JNum 7])]
  = ((run scripted (Database.execute example_insert JUndefined example_handle)
          [Resolved (JArr [JNum 1; JNum 7])]).1,
     [("plugin:sql|close", close_args example_handle);
      ("plugin:sql|execute",
       statement_args example_handle example_insert (nullish JUndefined (JArr [])))]).
Proof.
  apply (close_then_execute_invokes_again scripted example_handle example_insert JUndefined
           [Resolved (JBool true); Resolved (JArr [JNum 1; JNum 7])]
           [Resolved (JArr [JNum 1; JNum 7])] (Resolved (JBool true))).
  reflexivity.
Defined.

(** A load the backend rejects: the insert is never invoked. *)
Lemma load_then_execute_names_backend_answer_witness :
  run scripted (load_then_execute (JStr "sqlite:test.db") example_insert JUndefined tt)
      [Rejected (JStr "unable to open"); Resolved (JArr [JNum 1; JNum 7])]
  = (Thrown (JStr "unable to open"), tt, [Resolved (JArr [JNum 1; JNum 7])],
     [("plugin:sql|load", JObj [("db", JStr "sqlite:test.db")])]).
Proof.
  apply (load_then_execute_names_backend_answer scripted (JStr "sqlite:test.db")
           example_insert JUndefined
           [Rejected (JStr "unable to open"); Resolved (JArr [JNum 1; JNum 7])]
           [Resolved (JArr [JNum 1; JNum 7])] (Rejected (JStr "unable to open"))).
  reflexivity.
Defined.
